(** * EOH: evolution of a Hamiltonian, qiskit/aqua/algorithms/many_sample/eoh/eoh.py

    The class [EOH] validates four scalar parameters, converts two operators
    to weighted-Pauli form, composes a state-preparation circuit with a
    time-evolution circuit and has a backend evaluate an observable on it.

    The operators, the initial state, the circuits and the backend belong to
    other modules.  They are kept abstract here: the class [Collaborators]
    lists their types and the methods EOH calls, each method a function of
    the collaborators' own state that either raises or returns.  The methods
    of EOH are written in a state-and-exception monad over
    - the collaborators' state,
    - the attributes of [self],
    - the dict objects allocated by EOH (for [self._ret]), by address,
    - a log of the collaborator calls made so far, each with the exception
      it raised, if any. *)

From Stdlib Require Import ZArith String List Lia.
From stdpp Require Import base strings gmap list pretty.

Open Scope string_scope.
Open Scope Z_scope.
Open Scope list_scope.

(** ** Python exceptions *)

Record Exception := mkException { exc_class : string; exc_message : string }.

Definition AquaError (message : string) : Exception :=
  mkException "AquaError" message.

Definition AttributeError (message : string) : Exception :=
  mkException "AttributeError" message.

(** ** The collaborators *)

Class Collaborators := {
  (** operators that are not yet weighted-Pauli operators *)
  OtherOperator : Type;
  WeightedPauliOperator : Type;
  InitialState : Type;
  QuantumInstance : Type;
  QuantumRegister : Type;
  QuantumCircuit : Type;
  EvaluationCircuits : Type;
  Result : Type;
  Value : Type;
  (** the state of the collaborators themselves *)
  Env : Type;
  (** attributes read by EOH *)
  num_qubits : WeightedPauliOperator → Z;
  is_statevector : QuantumInstance → bool;
  (** constructors and methods called by EOH *)
  convert_operator :
    OtherOperator → Env → (Exception + WeightedPauliOperator) * Env;
  new_QuantumRegister :
    Z → string → Env → (Exception + QuantumRegister) * Env;
  initial_state_construct_circuit :
    InitialState → string → QuantumRegister →
    Env → (Exception + QuantumCircuit) * Env;
  operator_evolve :
    WeightedPauliOperator → Z → Z → QuantumRegister → string → Z →
    Env → (Exception + QuantumCircuit) * Env;
  circuit_iadd :
    QuantumCircuit → QuantumCircuit → Env → (Exception + QuantumCircuit) * Env;
  operator_construct_evaluation_circuit :
    WeightedPauliOperator → QuantumCircuit → bool →
    Env → (Exception + EvaluationCircuits) * Env;
  quantum_instance_execute :
    QuantumInstance → EvaluationCircuits → Env → (Exception + Result) * Env;
  operator_evaluate_with_result :
    WeightedPauliOperator → Result → bool →
    Env → (Exception + (Value * Value)) * Env;
}.

Section EOH.

Context `{C : Collaborators}.

(** Modelled from the spec: [BaseOperator] and
    [op_converter.to_weighted_pauli_operator] are imported by eoh.py and are
    not part of it.  The spec gives the operator a [toCanonicalForm] that is
    idempotent: an operator already in canonical (weighted-Pauli) form is
    returned as it is and the conversion does not raise; any other operator
    is converted by the collaborator, which may raise. *)
Inductive BaseOperator : Type :=
  | Canonical (w : WeightedPauliOperator)
  | NonCanonical (o : OtherOperator).

(** ** The log of collaborator calls

    Reads of the two collaborator attributes EOH looks at ([num_qubits] of
    an operator, [is_statevector] of the backend) are logged as well. *)

Inductive Call : Type :=
  | GetNumQubits (operator : WeightedPauliOperator)
  | GetIsStatevector (quantum_instance : QuantumInstance)
  | CallToWeightedPauliOperator (operator : BaseOperator)
  | CallQuantumRegister (size : Z) (name : string)
  | CallInitialStateConstructCircuit
      (initial_state : InitialState) (mode : string)
      (register : QuantumRegister)
  | CallEvolve
      (evo_operator : WeightedPauliOperator) (evo_time num_time_slices : Z)
      (quantum_registers : QuantumRegister) (expansion_mode : string)
      (expansion_order : Z)
  | CallIAdd (qc fragment : QuantumCircuit)
  | CallConstructEvaluationCircuit
      (operator : WeightedPauliOperator) (wave_function : QuantumCircuit)
      (statevector_mode : bool)
  | CallExecute (quantum_instance : QuantumInstance)
      (circuits : EvaluationCircuits)
  | CallEvaluateWithResult
      (operator : WeightedPauliOperator) (result : Result)
      (statevector_mode : bool).

Record Entry := mkEntry { entry_call : Call; entry_raised : option Exception }.

(** ** The attributes of an EOH object

    An attribute is [None] until [__init__] assigns it.  The attribute
    [_quantum_instance] holds Python's [None] ([Some None] here) until a
    backend is bound. *)

Record Instance := mkInstance {
  _operator : option WeightedPauliOperator;
  _initial_state : option InitialState;
  _evo_operator : option WeightedPauliOperator;
  _evo_time : option Z;
  _num_time_slices : option Z;
  _expansion_mode : option string;
  _expansion_order : option Z;
  _ret : option nat;
  _quantum_instance : option (option QuantumInstance);
}.

Definition fresh_instance : Instance :=
  mkInstance None None None None None None None None None.

Definition set_operator (v : WeightedPauliOperator) (o : Instance) :=
  mkInstance (Some v) (_initial_state o) (_evo_operator o) (_evo_time o)
    (_num_time_slices o) (_expansion_mode o) (_expansion_order o) (_ret o)
    (_quantum_instance o).

Definition set_initial_state (v : InitialState) (o : Instance) :=
  mkInstance (_operator o) (Some v) (_evo_operator o) (_evo_time o)
    (_num_time_slices o) (_expansion_mode o) (_expansion_order o) (_ret o)
    (_quantum_instance o).

Definition set_evo_operator (v : WeightedPauliOperator) (o : Instance) :=
  mkInstance (_operator o) (_initial_state o) (Some v) (_evo_time o)
    (_num_time_slices o) (_expansion_mode o) (_expansion_order o) (_ret o)
    (_quantum_instance o).

Definition set_evo_time (v : Z) (o : Instance) :=
  mkInstance (_operator o) (_initial_state o) (_evo_operator o) (Some v)
    (_num_time_slices o) (_expansion_mode o) (_expansion_order o) (_ret o)
    (_quantum_instance o).

Definition set_num_time_slices (v : Z) (o : Instance) :=
  mkInstance (_operator o) (_initial_state o) (_evo_operator o) (_evo_time o)
    (Some v) (_expansion_mode o) (_expansion_order o) (_ret o)
    (_quantum_instance o).

Definition set_expansion_mode (v : string) (o : Instance) :=
  mkInstance (_operator o) (_initial_state o) (_evo_operator o) (_evo_time o)
    (_num_time_slices o) (Some v) (_expansion_order o) (_ret o)
    (_quantum_instance o).

Definition set_expansion_order (v : Z) (o : Instance) :=
  mkInstance (_operator o) (_initial_state o) (_evo_operator o) (_evo_time o)
    (_num_time_slices o) (_expansion_mode o) (Some v) (_ret o)
    (_quantum_instance o).

Definition set_ret (v : nat) (o : Instance) :=
  mkInstance (_operator o) (_initial_state o) (_evo_operator o) (_evo_time o)
    (_num_time_slices o) (_expansion_mode o) (_expansion_order o) (Some v)
    (_quantum_instance o).

Definition set_quantum_instance (v : option QuantumInstance) (o : Instance) :=
  mkInstance (_operator o) (_initial_state o) (_evo_operator o) (_evo_time o)
    (_num_time_slices o) (_expansion_mode o) (_expansion_order o) (_ret o)
    (Some v).

(** ** Program states and the monad *)

Record State := mkState {
  env : Env;
  self : Instance;
  heap : list (gmap string Value);
  trace : list Entry;
}.

Definition M (A : Type) : Type := State → (Exception + A) * State.

#[global] Instance M_ret : MRet M := λ A (a : A) s, (inr a, s).

#[global] Instance M_bind : MBind M := λ A B (f : A → M B) (m : M A) s,
  match m s with
  | (inr a, s') => f a s'
  | (inl e, s') => (inl e, s')
  end.

Definition raise {A} (e : Exception) : M A := λ s, (inl e, s).

(** The outcome of code that touches no state. *)
Definition lift {A} (r : Exception + A) : M A := λ s, (r, s).

Definition raised_by {A} (r : Exception + A) : option Exception :=
  match r with inl e => Some e | inr _ => None end.

(** A call into a collaborator: it runs on the collaborators' state and is
    logged together with the exception it raised, if any. *)
Definition invoke {A} (c : Call) (f : Env → (Exception + A) * Env) : M A :=
  λ s, let '(r, e') := f (env s) in
       (r, mkState e' (self s) (heap s) (trace s ++ [mkEntry c (raised_by r)])).

(** A read of a collaborator's attribute: logged, and nothing else. *)
Definition read {A} (c : Call) (v : A) : M A :=
  invoke c (λ e, (inr v, e)).

(** [self.name], with Python's error for an attribute that was never set. *)
Definition getattr {A} (field : Instance → option A) (name : string) : M A :=
  λ s, match field (self s) with
       | Some v => (inr v, s)
       | None =>
           (inl (AttributeError
                   ("'EOH' object has no attribute '" +:+ name +:+ "'")), s)
       end.

(** [self.name = v] *)
Definition setattr (set : Instance → Instance) : M unit :=
  λ s, (inr tt, mkState (env s) (set (self s)) (heap s) (trace s)).

(** [{}]: a new, empty dict object; its address is returned. *)
Definition new_dict : M nat :=
  λ s, (inr (length (heap s)),
        mkState (env s) (self s) (heap s ++ [∅]) (trace s)).

(** [d[key] = v] on the dict object at address [d].  Addresses come from
    [new_dict] and are in range; at any other address nothing changes. *)
Definition dict_setitem (d : nat) (key : string) (v : Value) : M unit :=
  λ s, (inr tt,
        mkState (env s) (self s) (alter (insert key v) d (heap s)) (trace s)).

(** ** Calls into the collaborators, as EOH writes them *)

(** Modelled from the spec: [op_converter.to_weighted_pauli_operator] is not
    part of eoh.py (see [BaseOperator]).  A canonical operator comes back
    unchanged and nothing is raised; any other operator goes through the
    collaborator's conversion. *)
Definition convert (operator : BaseOperator)
  : Env → (Exception + WeightedPauliOperator) * Env :=
  match operator with
  | Canonical w => λ e, (inr w, e)
  | NonCanonical o => convert_operator o
  end.

(** [op_converter.to_weighted_pauli_operator(operator)] *)
Definition to_weighted_pauli_operator (operator : BaseOperator)
  : M WeightedPauliOperator :=
  invoke (CallToWeightedPauliOperator operator) (convert operator).

(** [operator.num_qubits] *)
Definition num_qubits_ (operator : WeightedPauliOperator) : M Z :=
  read (GetNumQubits operator) (num_qubits operator).

(** [quantum_instance.is_statevector] *)
Definition is_statevector_ (quantum_instance : QuantumInstance) : M bool :=
  read (GetIsStatevector quantum_instance) (is_statevector quantum_instance).

(** [QuantumRegister(size, name=name)] *)
Definition QuantumRegister_ (size : Z) (name : string) : M QuantumRegister :=
  invoke (CallQuantumRegister size name) (new_QuantumRegister size name).

(** [initial_state.construct_circuit(mode, register)] *)
Definition InitialState_construct_circuit (initial_state : InitialState)
    (mode : string) (register : QuantumRegister) : M QuantumCircuit :=
  invoke (CallInitialStateConstructCircuit initial_state mode register)
    (initial_state_construct_circuit initial_state mode register).

(** [evo_operator.evolve(evo_time=.., num_time_slices=..,
    quantum_registers=.., expansion_mode=.., expansion_order=..)] *)
Definition evolve (evo_operator : WeightedPauliOperator)
    (evo_time num_time_slices : Z) (quantum_registers : QuantumRegister)
    (expansion_mode : string) (expansion_order : Z) : M QuantumCircuit :=
  invoke
    (CallEvolve evo_operator evo_time num_time_slices quantum_registers
       expansion_mode expansion_order)
    (operator_evolve evo_operator evo_time num_time_slices quantum_registers
       expansion_mode expansion_order).

(** [qc += fragment] *)
Definition iadd (qc fragment : QuantumCircuit) : M QuantumCircuit :=
  invoke (CallIAdd qc fragment) (circuit_iadd qc fragment).

(** [operator.construct_evaluation_circuit(wave_function=..,
    statevector_mode=..)] *)
Definition construct_evaluation_circuit (operator : WeightedPauliOperator)
    (wave_function : QuantumCircuit) (statevector_mode : bool)
  : M EvaluationCircuits :=
  invoke (CallConstructEvaluationCircuit operator wave_function statevector_mode)
    (operator_construct_evaluation_circuit operator wave_function
       statevector_mode).

(** [quantum_instance.execute(circuits)] *)
Definition execute (quantum_instance : QuantumInstance)
    (circuits : EvaluationCircuits) : M Result :=
  invoke (CallExecute quantum_instance circuits)
    (quantum_instance_execute quantum_instance circuits).

(** [operator.evaluate_with_result(result=.., statevector_mode=..)] *)
Definition evaluate_with_result (operator : WeightedPauliOperator)
    (result : Result) (statevector_mode : bool) : M (Value * Value) :=
  invoke (CallEvaluateWithResult operator result statevector_mode)
    (operator_evaluate_with_result operator result statevector_mode).

(** An attribute of [self._quantum_instance]; on Python's [None] the
    attribute lookup raises. *)
Definition quantum_instance_attr (name : string)
    (q : option QuantumInstance) : M QuantumInstance :=
  match q with
  | Some qi => mret qi
  | None =>
      raise (AttributeError
               ("'NoneType' object has no attribute '" +:+ name +:+ "'"))
  end.

(** ** The methods of EOH *)

(** [EOH._validate_eoh] *)
Definition _validate_eoh (evo_time num_time_slices : Z)
    (expansion_mode : string) (expansion_order : Z) : Exception + unit :=
  if evo_time <? 0 then
    inl (AquaError ("Evo time value " +:+ pretty evo_time +:+
                    ". Minimum value allowed is 0"))
  else if num_time_slices <? 0 then
    inl (AquaError ("Num time slices value " +:+ pretty num_time_slices +:+
                    ". Minimum value allowed is 0"))
  else if negb (bool_decide (expansion_mode ∈ ["trotter"; "suzuki"])) then
    inl (AquaError ("Expansion Mode value '" +:+ expansion_mode +:+
                    "'. Values allowed are 'trotter', 'suzuki'"))
  else if expansion_order <? 1 then
    inl (AquaError ("Expansion order value " +:+ pretty expansion_order +:+
                    ". Minimum value allowed is 1"))
  else inr tt.

(** Modelled from the spec: [QuantumAlgorithm.__init__], reached through
    [super().__init__()], belongs to the base class, which is not part of
    eoh.py.  The spec has construction leave the backend alone and has run
    work on "the bound backend": the base initialiser leaves the backend
    slot empty (Python's [None]). *)
Definition QuantumAlgorithm___init__ : M unit :=
  setattr (set_quantum_instance None).

(** Modelled from the spec: binding the backend that [run] uses is done by
    the base class [QuantumAlgorithm], which is not part of eoh.py; it stores
    the reference in [self._quantum_instance]. *)
Definition bind_quantum_instance (quantum_instance : QuantumInstance) : M unit :=
  setattr (set_quantum_instance (Some quantum_instance)).

(** [EOH.__init__] *)
Definition __init__ (operator : BaseOperator) (initial_state : InitialState)
    (evo_operator : BaseOperator) (evo_time num_time_slices : Z)
    (expansion_mode : string) (expansion_order : Z) : M unit :=
  lift (_validate_eoh evo_time num_time_slices expansion_mode expansion_order);;
  QuantumAlgorithm___init__;;
  op ← to_weighted_pauli_operator operator;
  setattr (set_operator op);;
  setattr (set_initial_state initial_state);;
  evo ← to_weighted_pauli_operator evo_operator;
  setattr (set_evo_operator evo);;
  setattr (set_evo_time evo_time);;
  setattr (set_num_time_slices num_time_slices);;
  setattr (set_expansion_mode expansion_mode);;
  setattr (set_expansion_order expansion_order);;
  d ← new_dict;
  setattr (set_ret d).

(** [EOH.construct_circuit] *)
Definition construct_circuit : M QuantumCircuit :=
  operator ← getattr _operator "_operator";
  size ← num_qubits_ operator;
  quantum_registers ← QuantumRegister_ size "q";
  initial_state ← getattr _initial_state "_initial_state";
  qc ← InitialState_construct_circuit initial_state "circuit" quantum_registers;
  evo_operator ← getattr _evo_operator "_evo_operator";
  evo_time ← getattr _evo_time "_evo_time";
  num_time_slices ← getattr _num_time_slices "_num_time_slices";
  expansion_mode ← getattr _expansion_mode "_expansion_mode";
  expansion_order ← getattr _expansion_order "_expansion_order";
  fragment ← evolve evo_operator evo_time num_time_slices quantum_registers
               expansion_mode expansion_order;
  iadd qc fragment.

(** [EOH._run]; the dict [self._ret] is returned by address. *)
Definition _run : M nat :=
  qc ← construct_circuit;
  operator ← getattr _operator "_operator";
  q ← getattr _quantum_instance "_quantum_instance";
  quantum_instance ← quantum_instance_attr "is_statevector" q;
  statevector_mode ← is_statevector_ quantum_instance;
  qc_with_op ← construct_evaluation_circuit operator qc statevector_mode;
  q ← getattr _quantum_instance "_quantum_instance";
  quantum_instance ← quantum_instance_attr "execute" q;
  result ← execute quantum_instance qc_with_op;
  operator ← getattr _operator "_operator";
  q ← getattr _quantum_instance "_quantum_instance";
  quantum_instance ← quantum_instance_attr "is_statevector" q;
  statevector_mode ← is_statevector_ quantum_instance;
  '(avg, std_dev) ← evaluate_with_result operator result statevector_mode;
  ret ← getattr _ret "_ret";
  dict_setitem ret "avg" avg;;
  ret ← getattr _ret "_ret";
  dict_setitem ret "std_dev" std_dev;;
  getattr _ret "_ret".

(** ** Notions used to state the properties *)

(** The condition under which [_validate_eoh] rejects its arguments. *)
Definition invalid_parameters (evo_time num_time_slices : Z)
    (expansion_mode : string) (expansion_order : Z) : Prop :=
  evo_time < 0 ∨ num_time_slices < 0 ∨
  expansion_mode ∉ ["trotter"; "suzuki"] ∨ expansion_order < 1.

(** The states of an EOH object built by [EOH(operator, initial_state,
    evo_operator, evo_time, num_time_slices, expansion_mode,
    expansion_order)]: the state in which [__init__] returned, and every
    state reached from it by binding a backend, building the circuit or
    running, on any state of the collaborators. *)
Inductive constructed (operator : BaseOperator) (initial_state : InitialState)
    (evo_operator : BaseOperator) (evo_time num_time_slices : Z)
    (expansion_mode : string) (expansion_order : Z) : State → Prop :=
  | constructed_init s0 s :
      __init__ operator initial_state evo_operator evo_time num_time_slices
        expansion_mode expansion_order s0 = (inr tt, s) →
      constructed operator initial_state evo_operator evo_time num_time_slices
        expansion_mode expansion_order s
  | constructed_bind quantum_instance s s' :
      constructed operator initial_state evo_operator evo_time num_time_slices
        expansion_mode expansion_order s →
      bind_quantum_instance quantum_instance s = (inr tt, s') →
      constructed operator initial_state evo_operator evo_time num_time_slices
        expansion_mode expansion_order s'
  | constructed_build r s s' :
      constructed operator initial_state evo_operator evo_time num_time_slices
        expansion_mode expansion_order s →
      construct_circuit s = (r, s') →
      constructed operator initial_state evo_operator evo_time num_time_slices
        expansion_mode expansion_order s'
  | constructed_run r s s' :
      constructed operator initial_state evo_operator evo_time num_time_slices
        expansion_mode expansion_order s →
      _run s = (r, s') →
      constructed operator initial_state evo_operator evo_time num_time_slices
        expansion_mode expansion_order s'
  | constructed_env e s :
      constructed operator initial_state evo_operator evo_time num_time_slices
        expansion_mode expansion_order s →
      constructed operator initial_state evo_operator evo_time num_time_slices
        expansion_mode expansion_order (mkState e (self s) (heap s) (trace s)).

(** The attributes of an object on which [__init__] has returned. *)
Definition attributes (op : WeightedPauliOperator) (ist : InitialState)
    (evo : WeightedPauliOperator) (t n : Z) (m : string) (k : Z) (d : nat)
    (q : option QuantumInstance) : Instance :=
  mkInstance (Some op) (Some ist) (Some evo) (Some t) (Some n) (Some m)
    (Some k) (Some d) (Some q).

(** A backend is bound to the object. *)
Definition bound (s : State) (quantum_instance : QuantumInstance) : Prop :=
  _quantum_instance (self s) = Some (Some quantum_instance).

(** The result summary of one run. *)
Definition summary (avg std_dev : Value) : gmap string Value :=
  <["std_dev" := std_dev]> (<["avg" := avg]> ∅).

(** The log entry of a call that returned. *)
Definition returned (c : Call) : Entry := mkEntry c None.

Definition is_conversion (x : Entry) : bool :=
  match entry_call x with CallToWeightedPauliOperator _ => true | _ => false end.

Definition is_execute (x : Entry) : bool :=
  match entry_call x with CallExecute _ _ => true | _ => false end.

Definition is_num_qubits (x : Entry) : bool :=
  match entry_call x with GetNumQubits _ => true | _ => false end.

Definition count (p : Entry → bool) (l : list Entry) : nat :=
  length (List.filter p l).

(** The weighted-Pauli operators a call works on. *)
Definition operators_of (c : Call) : list WeightedPauliOperator :=
  match c with
  | GetNumQubits w => [w]
  | CallEvolve w _ _ _ _ _ => [w]
  | CallConstructEvaluationCircuit w _ _ => [w]
  | CallEvaluateWithResult w _ _ => [w]
  | _ => []
  end.

(** The logs of a method that lets every exception of a collaborator reach
    its caller as it is, for the exception the method ends with, if any:
    every call returned but possibly the last one, and the exception the
    last call raised, if any, is the exception of the method. *)
Inductive propagated : option Exception → list Entry → Prop :=
  | propagated_nil : propagated None []
  | propagated_raise c x : propagated (Some x) [mkEntry c (Some x)]
  | propagated_cons c l o : propagated o l → propagated o (returned c :: l).

(** The statevector flag a call is given. *)
Definition mode_flag_of (c : Call) : option bool :=
  match c with
  | CallConstructEvaluationCircuit _ _ flag => Some flag
  | CallEvaluateWithResult _ _ flag => Some flag
  | _ => None
  end.

(** The log of a [construct_circuit] that returned. *)
Definition build_log (op : WeightedPauliOperator) (ist : InitialState)
    (evo : WeightedPauliOperator) (t n : Z) (m : string) (k : Z)
    (reg : QuantumRegister) (prefix fragment : QuantumCircuit) : list Entry :=
  [returned (GetNumQubits op);
   returned (CallQuantumRegister (num_qubits op) "q");
   returned (CallInitialStateConstructCircuit ist "circuit" reg);
   returned (CallEvolve evo t n reg m k);
   returned (CallIAdd prefix fragment)].

(** The constructor, attribute or method a logged call goes to. *)
Inductive Method : Type :=
  | Method_num_qubits
  | Method_is_statevector
  | Method_to_weighted_pauli_operator
  | Method_QuantumRegister
  | Method_initial_state_construct_circuit
  | Method_evolve
  | Method_iadd
  | Method_construct_evaluation_circuit
  | Method_execute
  | Method_evaluate_with_result.

#[global] Instance Method_eq_dec : EqDecision Method.
Proof. solve_decision. Defined.

Definition method_of (c : Call) : Method :=
  match c with
  | GetNumQubits _ => Method_num_qubits
  | GetIsStatevector _ => Method_is_statevector
  | CallToWeightedPauliOperator _ => Method_to_weighted_pauli_operator
  | CallQuantumRegister _ _ => Method_QuantumRegister
  | CallInitialStateConstructCircuit _ _ _ =>
      Method_initial_state_construct_circuit
  | CallEvolve _ _ _ _ _ _ => Method_evolve
  | CallIAdd _ _ => Method_iadd
  | CallConstructEvaluationCircuit _ _ _ => Method_construct_evaluation_circuit
  | CallExecute _ _ => Method_execute
  | CallEvaluateWithResult _ _ _ => Method_evaluate_with_result
  end.

(** How often a log goes to a method. *)
Definition calls_of (meth : Method) (l : list Entry) : nat :=
  count (λ y, bool_decide (method_of (entry_call y) = meth)) l.

End EOH.

(** ** A small set of collaborators, to run the methods on

    Operators are known by their number of qubits, circuits are lists of
    gate names, the collaborators' state counts the executions so far.  The
    initial state [None] stands for Python's [None] passed as preparer. *)

Module Toy.

Definition QiskitError (message : string) : Exception :=
  mkException "QiskitError" message.

Definition toy_convert (o : Z) (e : Z) : (Exception + Z) * Z :=
  if o <? 0
  then (inl (AquaError "Unsupported type to convert to WeightedPauliOperator"), e)
  else (inr o, e).

Definition toy_register (size : Z) (name : string) (e : Z)
  : (Exception + (Z * string)) * Z :=
  if size <=? 0
  then (inl (QiskitError "register size must be positive"), e)
  else (inr (size, name), e).

Definition toy_prepare (s : option (list string)) (mode : string)
    (reg : Z * string) (e : Z) : (Exception + list string) * Z :=
  match s with
  | Some gates => (inr gates, e)
  | None =>
      (inl (AttributeError
              "'NoneType' object has no attribute 'construct_circuit'"), e)
  end.

Definition toy_evolve (w t n : Z) (reg : Z * string) (mode : string) (k : Z)
    (e : Z) : (Exception + list string) * Z :=
  if negb (w =? fst reg)
  then (inl (QiskitError "qubit count does not match the register"), e)
  else (inr (repeat ("evolve_" +:+ mode) (Z.to_nat n)), e).

Definition toy_iadd (qc fragment : list string) (e : Z)
  : (Exception + list string) * Z :=
  (inr (qc ++ fragment), e).

Definition toy_wrap (w : Z) (qc : list string) (sv : bool) (e : Z)
  : (Exception + list string) * Z :=
  (inr (qc ++ [if sv then "snapshot" else "measure"]), e).

Definition toy_execute (qi : bool) (circuits : list string) (e : Z)
  : (Exception + Z) * Z :=
  if 3 <=? e
  then (inl (QiskitError "backend is gone"), e)
  else (inr (10 * (e + 1)), e + 1).

Definition toy_evaluate (w : Z) (result : Z) (sv : bool) (e : Z)
  : (Exception + (Z * Z)) * Z :=
  (inr (result, if sv then 0 else 1), e).

#[export] Instance collaborators : Collaborators := {|
  OtherOperator := Z;
  WeightedPauliOperator := Z;
  InitialState := option (list string);
  QuantumInstance := bool;
  QuantumRegister := Z * string;
  QuantumCircuit := list string;
  EvaluationCircuits := list string;
  Result := Z;
  Value := Z;
  Env := Z;
  num_qubits := λ w, w;
  is_statevector := λ q, q;
  convert_operator := toy_convert;
  new_QuantumRegister := toy_register;
  initial_state_construct_circuit := toy_prepare;
  operator_evolve := toy_evolve;
  circuit_iadd := toy_iadd;
  operator_construct_evaluation_circuit := toy_wrap;
  quantum_instance_execute := toy_execute;
  operator_evaluate_with_result := toy_evaluate;
|}.

(** Operators on [n] qubits, one to be converted and one canonical; a
    preparer that applies a Hadamard gate, and Python's [None] in its
    place; a statevector backend. *)
Definition matrix (n : Z) : BaseOperator := NonCanonical n.
Definition paulis (n : Z) : BaseOperator := Canonical n.
Definition hadamard : InitialState := Some ["h"].
Definition no_preparer : InitialState := None.
Definition statevector_backend : QuantumInstance := true.

(** A new object, before [__init__] has run. *)
Definition start : State := mkState 0 fresh_instance [] [].

(** [EOH(operator, initial_state, evo_operator, 1, 2, 'trotter', 1)] on
    one qubit. *)
Definition built : State :=
  snd (__init__ (matrix 1) hadamard (paulis 1) 1 2 "trotter" 1 start).

(** The same object with the backend bound, and after one run. *)
Definition ready : State :=
  snd (bind_quantum_instance statevector_backend built).

Definition ran_once : State := snd (_run ready).

(** An observable on one qubit with an evolution operator on two. *)
Definition mismatched : State :=
  snd (__init__ (paulis 1) hadamard (paulis 2) 1 1 "trotter" 1 start).

(** Python's [None] given as initial state. *)
Definition unprepared : State :=
  snd (__init__ (paulis 1) no_preparer (paulis 1) 1 1 "trotter" 1 start).

(** The same object as [ran_once], but with other dicts in the store and an
    empty log. *)
Definition elsewhere : State :=
  mkState (env ran_once) (self ran_once) [summary 7 7; ∅] [].

(** An evolution operator that cannot be converted. *)
Definition half_built : State :=
  snd (__init__ (paulis 1) hadamard (matrix (-1)) 1 1 "trotter" 1 start).

End Toy.


(** * Properties *)

(** ** Running the methods symbolically *)

(** Unfold the monad and the record projections, and nothing of the
    collaborators or of the libraries. *)
Ltac norm_in H :=
  cbv beta iota zeta delta
    [_run construct_circuit __init__ QuantumAlgorithm___init__
     bind_quantum_instance to_weighted_pauli_operator num_qubits_
     is_statevector_ QuantumRegister_ InitialState_construct_circuit
     evolve iadd construct_evaluation_circuit execute
     evaluate_with_result quantum_instance_attr read invoke getattr
     setattr new_dict dict_setitem lift raise mbind mret M_bind M_ret
     raised_by env self heap trace _operator _initial_state _evo_operator
     _evo_time _num_time_slices _expansion_mode _expansion_order _ret
     _quantum_instance set_operator set_initial_state set_evo_operator
     set_evo_time set_num_time_slices set_expansion_mode
     set_expansion_order set_ret set_quantum_instance attributes bound] in H.

Ltac norm :=
  cbv beta iota zeta delta
    [_run construct_circuit __init__ QuantumAlgorithm___init__
     bind_quantum_instance to_weighted_pauli_operator num_qubits_
     is_statevector_ QuantumRegister_ InitialState_construct_circuit
     evolve iadd construct_evaluation_circuit execute
     evaluate_with_result quantum_instance_attr read invoke getattr
     setattr new_dict dict_setitem lift raise mbind mret M_bind M_ret
     raised_by env self heap trace _operator _initial_state _evo_operator
     _evo_time _num_time_slices _expansion_mode _expansion_order _ret
     _quantum_instance set_operator set_initial_state set_evo_operator
     set_evo_time set_num_time_slices set_expansion_mode
     set_expansion_order set_ret set_quantum_instance attributes bound].

(** Replay in the goal the calls whose outcome is among the hypotheses. *)
Ltac replay :=
  norm;
  repeat match goal with
         | E : ?c = (_, _) |- context [let '(_, _) := ?c in _] =>
             rewrite E; norm
         end.

(** One call into a collaborator: either it raised or it returned. *)
Ltac call_cases H :=
  match type of H with
  | context [let '(_, _) := ?x in _] =>
      let E := fresh "Ecall" in
      lazymatch x with
      | (let '(_, _) := _ in _) => fail
      | _ => idtac
      end;
      lazymatch type of x with
      | ((_ + (_ * _)) * _)%type => destruct x as [[?|[? ?]] ?] eqn:E
      | _ => destruct x as [[?|?] ?] eqn:E
      end; norm_in H
  end.

(** The end of a run: the outcome and the final state are known. *)
Ltac finish H :=
  match type of H with
  | (_, _) = (?r, ?s') =>
      let Hr := fresh "Hr" in
      let Hs := fresh "Hs" in
      apply pair_equal_spec in H; destruct H as [Hr Hs];
      try subst r; try subst s'; try discriminate Hr;
      try (injection Hr as Hr; try subst)
  end.

(** Replay in a hypothesis the calls whose outcome is among the others. *)
Ltac replay_in H :=
  norm_in H;
  repeat match goal with
         | E : ?c = (_, _) |- _ =>
             match type of H with
             | context [let '(_, _) := c in _] => rewrite E in H; norm_in H
             end
         end.

(** Two outcomes of the same call are the same outcome. *)
Ltac agree :=
  cbn in *;
  repeat match goal with
         | E : ?c = (_, _), H : ?c = (_, _) |- _ => rewrite E in H; simplify_eq
         end.

(** An entry of a log that is known. *)
Ltac in_log :=
  apply list_elem_of_In; cbn; repeat first [left; reflexivity | right].

(** A property of every entry of a log that is known. *)
Ltac each_entry :=
  cbn; repeat first [apply Forall_nil_2 | apply Forall_cons_2]; cbn.

(** All the ways a method can go. *)
Ltac run_cases H := norm_in H; repeat call_cases H; finish H.

Section Properties.

Context `{C : Collaborators}.

Implicit Types (s : State) (op evo : WeightedPauliOperator)
  (operator evo_operator : BaseOperator) (ist : InitialState)
  (t n k : Z) (m : string) (qi : QuantumInstance) (d : nat)
  (l : list Entry) (x : Exception) (e : Env).

(** ** Validation *)

Lemma validate_passes_iff t n m k :
  _validate_eoh t n m k = inr tt ↔ ¬ invalid_parameters t n m k.
Proof.
  unfold _validate_eoh, invalid_parameters.
  destruct (Z.ltb_spec t 0); [split; [discriminate | tauto] |].
  destruct (Z.ltb_spec n 0); [split; [discriminate | tauto] |].
  case_bool_decide; cbn; [| split; [discriminate | tauto]].
  destruct (Z.ltb_spec k 1); [split; [discriminate | tauto] |].
  split; [intros _ [?|[?|[?|?]]]; first [lia | contradiction] | reflexivity].
Qed.

Lemma validate_raises_iff t n m k :
  (∃ x, _validate_eoh t n m k = inl x) ↔ invalid_parameters t n m k.
Proof.
  split.
  - intros [x He]. unfold _validate_eoh, invalid_parameters in *.
    destruct (Z.ltb_spec t 0); [tauto |].
    destruct (Z.ltb_spec n 0); [tauto |].
    case_bool_decide; cbn in He; [| tauto].
    destruct (Z.ltb_spec k 1); [tauto | discriminate].
  - intros Hi. destruct (_validate_eoh t n m k) as [x|[]] eqn:E; [eauto |].
    apply validate_passes_iff in E. contradiction.
Qed.

(** ** Construction *)

Lemma init_returns operator ist evo_operator t n m k s0 s :
  __init__ operator ist evo_operator t n m k s0 = (inr tt, s) →
  ¬ invalid_parameters t n m k ∧
  ∃ op evo e1,
    convert operator (env s0) = (inr op, e1) ∧
    convert evo_operator e1 = (inr evo, env s) ∧
    self s = attributes op ist evo t n m k (length (heap s0)) None ∧
    heap s = heap s0 ++ [∅] ∧
    trace s = trace s0 ++ [returned (CallToWeightedPauliOperator operator);
                           returned (CallToWeightedPauliOperator evo_operator)].
Proof.
  intros H. destruct s0 as [e0 o h tr]. unfold __init__ in H.
  destruct (_validate_eoh t n m k) as [x|[]] eqn:Ev.
  - norm_in H. discriminate.
  - apply validate_passes_iff in Ev. split; [assumption |].
    run_cases H.
    do 3 eexists. cbn. rewrite <- app_assoc. repeat split; eassumption.
Qed.

(** ** The summary dict *)

Lemma summary_overwrites (prev : gmap string Value) (avg std_dev : Value) :
  prev = ∅ ∨ (∃ a b, prev = summary a b) →
  <["std_dev" := std_dev]> (<["avg" := avg]> prev) = summary avg std_dev.
Proof.
  intros [-> | (a & b & ->)]; [reflexivity |]. unfold summary.
  rewrite (insert_insert_ne _ "avg" "std_dev") by discriminate.
  rewrite insert_insert_eq. rewrite insert_insert_eq. reflexivity.
Qed.

(** ** What every state of a constructed object looks like *)

Lemma bind_inv {A B} (c : M A) (f : A → M B) s (r : Exception + B) s' :
  (c ≫= f) s = (r, s') →
  (∃ x, c s = (inl x, s') ∧ r = inl x) ∨
  (∃ a s1, c s = (inr a, s1) ∧ f a s1 = (r, s')).
Proof.
  unfold mbind, M_bind. destruct (c s) as [[x|a] s1]; intros H.
  - left. exists x. injection H as <- <-. auto.
  - right. eauto.
Qed.

Lemma build_frame s op ist evo t n m k d q r s' :
  self s = attributes op ist evo t n m k d q →
  construct_circuit s = (r, s') →
  self s' = self s ∧ heap s' = heap s.
Proof.
  destruct s as [e0 o h tr]. cbn. intros -> H.
  run_cases H; auto.
Qed.

Lemma run_frame s op ist evo t n m k d q r s' :
  self s = attributes op ist evo t n m k d q →
  _run s = (r, s') →
  self s' = self s ∧
  (heap s' = heap s ∨
   ∃ avg std_dev,
     heap s' =
     alter (insert "std_dev" std_dev) d (alter (insert "avg" avg) d (heap s))).
Proof.
  destruct s as [e0 o h tr]. cbn. intros -> H.
  destruct q as [qi|]; run_cases H; eauto.
Qed.

Lemma constructed_attributes operator ist evo_operator t n m k s :
  constructed operator ist evo_operator t n m k s →
  ¬ invalid_parameters t n m k ∧
  ∃ op evo d q prev,
    self s = attributes op ist evo t n m k d q ∧
    heap s !! d = Some prev ∧
    (prev = ∅ ∨ ∃ avg std_dev, prev = summary avg std_dev) ∧
    (∃ e e', convert operator e = (inr op, e')) ∧
    (∃ e e', convert evo_operator e = (inr evo, e')).
Proof.
  induction 1 as [s0 s H | qi s s' _ IH H | r s s' _ IH H | r s s' _ IH H
                 | e s _ IH].
  - apply init_returns in H as (Hv & op & evo & e1 & Hop & Hevo & Hs & Hh & _).
    split; [assumption |]. exists op, evo, (length (heap s0)), None, ∅.
    repeat split; eauto. rewrite Hh. apply list_lookup_middle. reflexivity.
  - destruct IH as (Hv & op & evo & d & q & prev & Hs & Hh & Hp & Hop & Hevo).
    split; [assumption |]. exists op, evo, d, (Some qi), prev.
    destruct s as [e0 o h tr]. cbn in Hs. subst o.
    norm_in H. finish H. cbn. auto.
  - destruct IH as (Hv & op & evo & d & q & prev & Hs & Hh & Hp & Hop & Hevo).
    split; [assumption |]. exists op, evo, d, q, prev.
    destruct (build_frame _ _ _ _ _ _ _ _ _ _ _ _ Hs H) as [-> ->]. auto.
  - destruct IH as (Hv & op & evo & d & q & prev & Hs & Hh & Hp & Hop & Hevo).
    split; [assumption |].
    destruct (run_frame _ _ _ _ _ _ _ _ _ _ _ _ Hs H)
      as [-> [-> | (avg & std_dev & ->)]].
    + exists op, evo, d, q, prev. auto.
    + exists op, evo, d, q, (summary avg std_dev). repeat split; eauto.
      rewrite !list_lookup_alter_eq, Hh. cbn. f_equal.
      apply summary_overwrites, Hp.
  - destruct IH as (Hv & op & evo & d & q & prev & Hs & Hh & Hp & Hop & Hevo).
    split; [assumption |]. exists op, evo, d, q, prev. auto.
Qed.

(** ** Validation at construction *)

(** C1. Construction raises a validation error if and only if
    [evo_time < 0], or [num_time_slices < 0], or [expansion_mode] is neither
    'trotter' nor 'suzuki', or [expansion_order < 1].  For parameters with
    [evo_time >= 0], [num_time_slices >= 0], a listed mode and
    [expansion_order >= 1], validation passes and construction returns
    whenever the two conversions return; and any exception construction
    still raises is the one raised by a conversion. *)
Theorem construction_validates operator ist evo_operator t n m k s0 :
  ((∃ x, _validate_eoh t n m k = inl x ∧
         __init__ operator ist evo_operator t n m k s0 = (inl x, s0))
   ↔ invalid_parameters t n m k) ∧
  (0 ≤ t → 0 ≤ n → m ∈ ["trotter"; "suzuki"] → 1 ≤ k →
   _validate_eoh t n m k = inr tt ∧
   (∀ op e1 evo e2,
      convert operator (env s0) = (inr op, e1) →
      convert evo_operator e1 = (inr evo, e2) →
      ∃ s, __init__ operator ist evo_operator t n m k s0 = (inr tt, s)) ∧
   (∀ x s,
      __init__ operator ist evo_operator t n m k s0 = (inl x, s) →
      ∃ o, (o = operator ∨ o = evo_operator) ∧
           last (trace s) = Some (mkEntry (CallToWeightedPauliOperator o) (Some x)))).
Proof.
  split; [split |].
  - intros (x & Hx & _). apply validate_raises_iff. eauto.
  - intros Hi. apply validate_raises_iff in Hi as [x Hx]. exists x.
    split; [assumption |]. unfold __init__. rewrite Hx. reflexivity.
  - intros Ht Hn Hm Hk.
    assert (Hv : _validate_eoh t n m k = inr tt).
    { apply validate_passes_iff. intros [?|[?|[?|?]]];
        first [lia | contradiction]. }
    split; [assumption |]. destruct s0 as [e0 o h tr]. split.
    + intros op e1 evo e2 Hop Hevo. unfold __init__. rewrite Hv.
      cbn in Hop.
      match goal with |- ∃ s, ?c = _ => destruct c as [r s] eqn:H end.
      norm_in H. rewrite Hop in H. norm_in H. rewrite Hevo in H. norm_in H.
      finish H. eauto.
    + intros x s H. unfold __init__ in H. rewrite Hv in H.
      run_cases H; cbn; rewrite last_snoc; eauto.
Qed.

(** C5. The four checks run before anything else, in the order [evo_time],
    [num_time_slices], [expansion_mode], [expansion_order]: the exception is
    that of the first failing check, its message names the parameter and
    shows the rejected value, and the state is left as it was (no attribute
    assigned, no dict allocated, no collaborator called). *)
Theorem validation_is_eager_and_ordered operator ist evo_operator t n m k s0 :
  (t < 0 →
   __init__ operator ist evo_operator t n m k s0 =
   (inl (AquaError ("Evo time value " +:+ pretty t +:+
                    ". Minimum value allowed is 0")), s0)) ∧
  (0 ≤ t → n < 0 →
   __init__ operator ist evo_operator t n m k s0 =
   (inl (AquaError ("Num time slices value " +:+ pretty n +:+
                    ". Minimum value allowed is 0")), s0)) ∧
  (0 ≤ t → 0 ≤ n → m ∉ ["trotter"; "suzuki"] →
   __init__ operator ist evo_operator t n m k s0 =
   (inl (AquaError ("Expansion Mode value '" +:+ m +:+
                    "'. Values allowed are 'trotter', 'suzuki'")), s0)) ∧
  (0 ≤ t → 0 ≤ n → m ∈ ["trotter"; "suzuki"] → k < 1 →
   __init__ operator ist evo_operator t n m k s0 =
   (inl (AquaError ("Expansion order value " +:+ pretty k +:+
                    ". Minimum value allowed is 1")), s0)).
Proof.
  unfold __init__, _validate_eoh. repeat split; intros.
  - destruct (Z.ltb_spec t 0); [reflexivity | lia].
  - destruct (Z.ltb_spec t 0); [lia |].
    destruct (Z.ltb_spec n 0); [reflexivity | lia].
  - destruct (Z.ltb_spec t 0); [lia |].
    destruct (Z.ltb_spec n 0); [lia |].
    rewrite bool_decide_eq_false_2 by assumption. reflexivity.
  - destruct (Z.ltb_spec t 0); [lia |].
    destruct (Z.ltb_spec n 0); [lia |].
    rewrite bool_decide_eq_true_2 by assumption. cbn.
    destruct (Z.ltb_spec k 1); [reflexivity | lia].
Qed.

(** ** Building the circuit *)

(** C2. On a constructed object [construct_circuit] asks for a register of
    [num_qubits] of the observable operator, has the initial state prepare
    its circuit on that register, has the evolution operator evolve on the
    same register with the stored [evo_time], [num_time_slices],
    [expansion_mode] and [expansion_order], and returns the first circuit
    with the second added to it.  It returns whenever these calls return.
    It changes neither the attributes nor the dict, and its outcome depends
    only on the attributes and the collaborators' state: a second call
    with both unchanged has the same outcome. *)
Theorem construct_circuit_composes operator ist evo_operator t n m k s r s' :
  constructed operator ist evo_operator t n m k s →
  construct_circuit s = (r, s') →
  ∃ op evo,
    _operator (self s) = Some op ∧ _evo_operator (self s) = Some evo ∧
    (∀ qc, r = inr qc →
       ∃ reg e1 prefix e2 fragment e3,
         new_QuantumRegister (num_qubits op) "q" (env s) = (inr reg, e1) ∧
         initial_state_construct_circuit ist "circuit" reg e1
           = (inr prefix, e2) ∧
         operator_evolve evo t n reg m k e2 = (inr fragment, e3) ∧
         circuit_iadd prefix fragment e3 = (inr qc, env s') ∧
         trace s' = trace s ++ build_log op ist evo t n m k reg prefix fragment) ∧
    (∀ reg e1 prefix e2 fragment e3 qc e4,
       new_QuantumRegister (num_qubits op) "q" (env s) = (inr reg, e1) →
       initial_state_construct_circuit ist "circuit" reg e1
         = (inr prefix, e2) →
       operator_evolve evo t n reg m k e2 = (inr fragment, e3) →
       circuit_iadd prefix fragment e3 = (inr qc, e4) →
       r = inr qc ∧ env s' = e4) ∧
    self s' = self s ∧ heap s' = heap s ∧
    (∀ s2, self s2 = self s → env s2 = env s →
       ∃ s2', construct_circuit s2 = (r, s2') ∧ env s2' = env s') ∧
    (env s' = env s → ∃ s'', construct_circuit s' = (r, s'')).
Proof.
  intros Hc H.
  destruct (constructed_attributes _ _ _ _ _ _ _ _ Hc)
    as (_ & op & evo & d & q & prev & Hs & _).
  exists op, evo. destruct s as [e0 o h tr]. cbn in Hs. subst o.
  split; [reflexivity |]. split; [reflexivity |].
  assert (Hdet : ∀ s2, self s2 = attributes op ist evo t n m k d q →
                       env s2 = e0 →
                       ∃ s2', construct_circuit s2 = (r, s2') ∧ env s2' = env s').
  { intros [e2 o2 h2 tr2]. cbn. intros -> ->.
    run_cases H; replay; eexists; split; reflexivity. }
  split; [| split; [| split; [| split; [| split]]]].
  - intros qc ->. run_cases H. cbn. unfold build_log.
    do 6 eexists. rewrite <- !app_assoc. cbn. repeat split; eassumption.
  - intros reg e1 prefix e2 fragment e3 qc e4 H1 H2 H3 H4. cbn in H1.
    norm_in H. rewrite H1 in H. norm_in H. rewrite H2 in H. norm_in H.
    rewrite H3 in H. norm_in H. rewrite H4 in H. norm_in H. finish H.
    split; reflexivity.
  - run_cases H; reflexivity.
  - run_cases H; reflexivity.
  - exact Hdet.
  - intros He. destruct (Hdet s') as (s'' & Hs'' & _); eauto.
    run_cases H; reflexivity.
Qed.

(** ** Running *)

(** C3. On a constructed object with a backend bound, [_run] builds the
    circuit with [construct_circuit], has the observable operator wrap it,
    makes one [execute] call on the backend, has the observable operator
    evaluate the result into a pair, stores the pair in the summary dict
    and returns that dict.  It returns whenever these calls return.  When
    it raises, the dicts are as they were before the call and at most one
    [execute] call was made. *)
Theorem run_sequence operator ist evo_operator t n m k s qi r s' :
  constructed operator ist evo_operator t n m k s →
  bound s qi →
  _run s = (r, s') →
  ∃ op d l,
    _operator (self s) = Some op ∧ _ret (self s) = Some d ∧
    trace s' = trace s ++ l ∧
    ((∃ qc s1 circuits e2 result e3 avg std_dev,
        construct_circuit s = (inr qc, s1) ∧
        operator_construct_evaluation_circuit op qc (is_statevector qi) (env s1)
          = (inr circuits, e2) ∧
        quantum_instance_execute qi circuits e2 = (inr result, e3) ∧
        operator_evaluate_with_result op result (is_statevector qi) e3
          = (inr (avg, std_dev), env s') ∧
        trace s' =
          trace s1 ++
          [returned (GetIsStatevector qi);
           returned (CallConstructEvaluationCircuit op qc (is_statevector qi));
           returned (CallExecute qi circuits);
           returned (GetIsStatevector qi);
           returned (CallEvaluateWithResult op result (is_statevector qi))] ∧
        count is_execute l = 1%nat ∧
        r = inr d ∧
        heap s' !! d = Some (summary avg std_dev))
     ∨
     (∃ x, r = inl x ∧ heap s' = heap s ∧ (count is_execute l ≤ 1)%nat)) ∧
    (∀ qc s1 circuits e2 result e3 pair e4,
       construct_circuit s = (inr qc, s1) →
       operator_construct_evaluation_circuit op qc (is_statevector qi) (env s1)
         = (inr circuits, e2) →
       quantum_instance_execute qi circuits e2 = (inr result, e3) →
       operator_evaluate_with_result op result (is_statevector qi) e3
         = (inr pair, e4) →
       r = inr d).
Proof.
  intros Hc Hb H.
  destruct (constructed_attributes _ _ _ _ _ _ _ _ Hc)
    as (_ & op & evo & d & q & prev & Hs & Hh & Hp & _).
  exists op, d. destruct s as [e0 o h tr]. cbn in Hs, Hh. subst o.
  norm_in Hb. injection Hb as ->.
  assert (Hret : ∀ qc s1 circuits e2 result e3 pair e4,
    construct_circuit
      (mkState e0 (attributes op ist evo t n m k d (Some qi)) h tr)
      = (inr qc, s1) →
    operator_construct_evaluation_circuit op qc (is_statevector qi) (env s1)
      = (inr circuits, e2) →
    quantum_instance_execute qi circuits e2 = (inr result, e3) →
    operator_evaluate_with_result op result (is_statevector qi) e3
      = (inr pair, e4) →
    r = inr d).
  { intros qc s1 circuits e2 result e3 [avg std_dev] e4 H1 H2 H3 H4.
    unfold _run in H. apply bind_inv in H as [(x & H & _) | (a & s2 & H & Ht)];
      [congruence |].
    rewrite H1 in H. injection H as <- <-.
    destruct (build_frame _ _ _ _ _ _ _ _ _ _ _ _
                (eq_refl : self (mkState e0 _ h tr)
                           = attributes op ist evo t n m k d (Some qi)) H1)
      as [Hs1 Hh1].
    destruct s1 as [e1 o1 h1 tr1]. cbn in Hs1, Hh1, H2. subst o1 h1.
    norm_in Ht. rewrite H2 in Ht. norm_in Ht. rewrite H3 in Ht. norm_in Ht.
    rewrite H4 in Ht. norm_in Ht. finish Ht. reflexivity. }
  run_cases H; eexists; (split; [reflexivity |]); (split; [reflexivity |]);
    (split; [cbn; rewrite <- ?app_assoc; reflexivity |]);
    (split; [| exact Hret]).
  all: try (right; eexists; split; [reflexivity |];
            split; [reflexivity | cbn; lia]).
  left. do 8 eexists. split; [replay; reflexivity |].
  cbn. rewrite <- !app_assoc. repeat split; try eassumption.
  rewrite !list_lookup_alter_eq, Hh. cbn. f_equal.
  apply summary_overwrites, Hp.
Qed.

(** C4. In every run the flag given to [construct_evaluation_circuit] and
    the flag given to [evaluate_with_result] are both [is_statevector] of
    the bound backend, and no call is given the other value.  Both calls
    are made: [construct_evaluation_circuit] with that flag on the circuit
    built, whenever [construct_circuit] returns; [evaluate_with_result]
    with that flag on the backend's result, whenever the backend returns
    one; and the run returns when the evaluation does. *)
Theorem run_mode_flags operator ist evo_operator t n m k s qi r s' :
  constructed operator ist evo_operator t n m k s →
  bound s qi →
  _run s = (r, s') →
  ∃ op l,
    _operator (self s) = Some op ∧
    trace s' = trace s ++ l ∧
    Forall (λ y, ∀ flag, mode_flag_of (entry_call y) = Some flag →
                         flag = is_statevector qi) l ∧
    (∀ d, r = inr d →
       ∃ wave_function result,
         returned (CallConstructEvaluationCircuit op wave_function
                     (is_statevector qi)) ∈ l ∧
         returned (CallEvaluateWithResult op result (is_statevector qi)) ∈ l) ∧
    (∀ qc s1,
       construct_circuit s = (inr qc, s1) →
       ∃ raised,
         mkEntry (CallConstructEvaluationCircuit op qc (is_statevector qi))
           raised ∈ l) ∧
    (∀ qc s1 circuits e2 result e3,
       construct_circuit s = (inr qc, s1) →
       operator_construct_evaluation_circuit op qc (is_statevector qi) (env s1)
         = (inr circuits, e2) →
       quantum_instance_execute qi circuits e2 = (inr result, e3) →
       ∃ raised,
         mkEntry (CallEvaluateWithResult op result (is_statevector qi))
           raised ∈ l) ∧
    (∀ qc s1 circuits e2 result e3 pair e4,
       construct_circuit s = (inr qc, s1) →
       operator_construct_evaluation_circuit op qc (is_statevector qi) (env s1)
         = (inr circuits, e2) →
       quantum_instance_execute qi circuits e2 = (inr result, e3) →
       operator_evaluate_with_result op result (is_statevector qi) e3
         = (inr pair, e4) →
       ∃ d, r = inr d).
Proof.
  intros Hc Hb H.
  destruct (constructed_attributes _ _ _ _ _ _ _ _ Hc)
    as (_ & op & evo & d & q & prev & Hs & _).
  exists op. destruct s as [e0 o h tr]. cbn in Hs. subst o.
  norm_in Hb. injection Hb as ->. clear Hc.
  run_cases H; eexists; (split; [reflexivity |]);
    (split; [cbn; rewrite <- ?app_assoc; reflexivity |]);
    (split; [each_entry; intros; congruence |]);
    (split; [intros d' Hd; try discriminate Hd;
             do 2 eexists; split; in_log |]);
    (split; [intros wave after H1; replay_in H1; simplify_eq;
             eexists; in_log |]);
    (split; [intros wave after wrapped ea outcome eb H1 H2 H3;
             replay_in H1; simplify_eq; agree; eexists; in_log |]);
    intros wave after wrapped ea outcome eb both ec H1 H2 H3 H4;
    replay_in H1; simplify_eq; agree; eauto.
Qed.

(** C8. A run that returns hands back the dict stored in [self._ret], the
    same dict on every run, and that dict then holds this run's pair under
    'avg' and 'std_dev' and nothing else, whatever an earlier run had left
    in it; no other dict changes. *)
Theorem run_overwrites_summary operator ist evo_operator t n m k s qi d s' :
  constructed operator ist evo_operator t n m k s →
  bound s qi →
  _run s = (inr d, s') →
  _ret (self s) = Some d ∧ _ret (self s') = Some d ∧
  ∃ op result e3 avg std_dev prev,
    operator_evaluate_with_result op result (is_statevector qi) e3
      = (inr (avg, std_dev), env s') ∧
    last (trace s')
      = Some (returned (CallEvaluateWithResult op result (is_statevector qi))) ∧
    heap s !! d = Some prev ∧
    (prev = ∅ ∨ ∃ avg0 std_dev0, prev = summary avg0 std_dev0) ∧
    heap s' !! d = Some (summary avg std_dev) ∧
    summary avg std_dev !! "avg" = Some avg ∧
    summary avg std_dev !! "std_dev" = Some std_dev ∧
    dom (summary avg std_dev) = {["avg"; "std_dev"]} ∧
    (∀ d', d' ≠ d → heap s' !! d' = heap s !! d').
Proof.
  intros Hc Hb H.
  destruct (constructed_attributes _ _ _ _ _ _ _ _ Hc)
    as (_ & op & evo & d0 & q & prev & Hs & Hh & Hp & _).
  destruct s as [e0 o h tr]. cbn in Hs, Hh. subst o.
  norm_in Hb. injection Hb as ->.
  run_cases H. cbn. split; [reflexivity |]. split; [reflexivity |].
  exists op. do 4 eexists. exists prev.
  split; [eassumption |]. split; [apply last_snoc |].
  split; [assumption |]. split; [assumption |].
  split; [| split; [| split; [| split]]].
  - rewrite !list_lookup_alter_eq, Hh. cbn. f_equal.
    apply summary_overwrites, Hp.
  - unfold summary. rewrite lookup_insert_ne by discriminate.
    apply lookup_insert_eq.
  - apply lookup_insert_eq.
  - unfold summary. rewrite !dom_insert_L. set_solver.
  - intros d' Hd. rewrite !list_lookup_alter_ne by congruence. reflexivity.
Qed.

(** ** Exceptions *)

(** C7. An exception raised by a collaborator during [construct_circuit] or
    [_run] ends the method at once and is the exception of the method:
    every call logged before it returned and no call follows it, so nothing
    is caught, replaced or tried again.  Construction ends either with the
    exception of a failed check, or like the other methods. *)
Theorem failures_propagate operator ist evo_operator t n m k s :
  constructed operator ist evo_operator t n m k s →
  (∀ r s', construct_circuit s = (r, s') →
     ∃ l, trace s' = trace s ++ l ∧ propagated (raised_by r) l) ∧
  (∀ qi r s', bound s qi → _run s = (r, s') →
     ∃ l, trace s' = trace s ++ l ∧ propagated (raised_by r) l) ∧
  (∀ operator' ist' evo_operator' t' n' m' k' s0 r s1,
     __init__ operator' ist' evo_operator' t' n' m' k' s0 = (r, s1) →
     (∃ x, _validate_eoh t' n' m' k' = inl x ∧ r = inl x ∧ s1 = s0) ∨
     (_validate_eoh t' n' m' k' = inr tt ∧
      ∃ l, trace s1 = trace s0 ++ l ∧ propagated (raised_by r) l)).
Proof.
  intros Hc.
  destruct (constructed_attributes _ _ _ _ _ _ _ _ Hc)
    as (_ & op & evo & d & q & prev & Hs & _).
  destruct s as [e0 o h tr]. cbn in Hs. subst o.
  split; [| split].
  - intros r s' H.
    run_cases H; eexists;
      (split; [cbn; rewrite <- ?app_assoc; reflexivity |]);
      cbn; repeat constructor.
  - intros qi r s' Hb H. norm_in Hb. injection Hb as ->.
    run_cases H; eexists;
      (split; [cbn; rewrite <- ?app_assoc; reflexivity |]);
      cbn; repeat constructor.
  - intros operator' ist' evo_operator' t' n' m' k' [e0' o' h' tr'] r s1 H.
    unfold __init__ in H.
    destruct (_validate_eoh t' n' m' k') as [x|[]] eqn:Ev.
    + left. exists x. norm_in H. finish H. auto.
    + right. split; [reflexivity |].
      run_cases H; eexists;
        (split; [cbn; rewrite <- ?app_assoc; reflexivity |]);
        cbn; repeat constructor.
Qed.

(** ** The operators *)

Lemma build_returns s op ist evo t n m k d q r s'
    reg e1 prefix e2 fragment e3 qc e4 :
  self s = attributes op ist evo t n m k d q →
  construct_circuit s = (r, s') →
  new_QuantumRegister (num_qubits op) "q" (env s) = (inr reg, e1) →
  initial_state_construct_circuit ist "circuit" reg e1 = (inr prefix, e2) →
  operator_evolve evo t n reg m k e2 = (inr fragment, e3) →
  circuit_iadd prefix fragment e3 = (inr qc, e4) →
  r = inr qc.
Proof.
  destruct s as [e0 o h tr]. cbn. intros -> H H1 H2 H3 H4.
  norm_in H. rewrite H1 in H. norm_in H. rewrite H2 in H. norm_in H.
  rewrite H3 in H. norm_in H. rewrite H4 in H. norm_in H. finish H.
  reflexivity.
Qed.

(** C6. Construction converts the observable operator and the evolution
    operator once each, in this order, and stores the results; afterwards
    neither [construct_circuit] nor [_run] converts anything, and every
    operator they hand to or read from a collaborator is one of the two
    stored results.  Converting a canonical operator returns it unchanged,
    raises nothing and leaves the collaborators' state alone, so converting
    the result of a conversion again changes nothing. *)
Theorem operators_canonical_once operator ist evo_operator t n m k :
  (∀ s0 s,
     __init__ operator ist evo_operator t n m k s0 = (inr tt, s) →
     ∃ op evo e1,
       convert operator (env s0) = (inr op, e1) ∧
       convert evo_operator e1 = (inr evo, env s) ∧
       _operator (self s) = Some op ∧ _evo_operator (self s) = Some evo ∧
       trace s = trace s0 ++
                 [returned (CallToWeightedPauliOperator operator);
                  returned (CallToWeightedPauliOperator evo_operator)]) ∧
  (∀ s,
     constructed operator ist evo_operator t n m k s →
     ∃ op evo,
       _operator (self s) = Some op ∧ _evo_operator (self s) = Some evo ∧
       (∃ e e', convert operator e = (inr op, e')) ∧
       (∃ e e', convert evo_operator e = (inr evo, e')) ∧
       (∀ r s', construct_circuit s = (r, s') →
          ∃ l, trace s' = trace s ++ l ∧ count is_conversion l = 0%nat ∧
               Forall (λ y, ∀ w, w ∈ operators_of (entry_call y) →
                                 w = op ∨ w = evo) l) ∧
       (∀ r s', _run s = (r, s') →
          ∃ l, trace s' = trace s ++ l ∧ count is_conversion l = 0%nat ∧
               Forall (λ y, ∀ w, w ∈ operators_of (entry_call y) →
                                 w = op ∨ w = evo) l)) ∧
  (∀ w e, convert (Canonical w) e = (inr w, e)) ∧
  (∀ o e w e', convert o e = (inr w, e') →
               convert (Canonical w) e' = (inr w, e')).
Proof.
  split; [| split; [| split]].
  - intros s0 s H.
    apply init_returns in H as (_ & op & evo & e1 & Hop & Hevo & Hs & _ & Ht).
    exists op, evo, e1. rewrite Hs. auto.
  - intros s Hc.
    destruct (constructed_attributes _ _ _ _ _ _ _ _ Hc)
      as (_ & op & evo & d & q & prev & Hs & _ & _ & Hop & Hevo).
    exists op, evo. destruct s as [e0 o h tr]. cbn in Hs. subst o.
    do 4 (split; [first [reflexivity | assumption] |]).
    split; intros r s' H; [| destruct q as [qi|]].
    all: run_cases H; eexists;
      (split; [cbn; rewrite <- ?app_assoc; reflexivity |]);
      (split; [reflexivity |]);
      each_entry; intros w Hw;
      repeat (apply elem_of_cons in Hw as [-> | Hw]; [tauto |]);
      apply elem_of_nil in Hw; contradiction.
  - reflexivity.
  - reflexivity.
Qed.

(** C9. Construction reads no qubit count.  [construct_circuit] reads one,
    that of the observable operator, and asks for a register of that size;
    it never reads the count of the evolution operator, so the two are not
    compared and no exception of EOH depends on them: whatever the counts,
    [construct_circuit] returns when the collaborators' calls return, and an
    exception it ends with was raised by a collaborator. *)
Theorem qubit_counts_never_compared operator ist evo_operator t n m k :
  (∀ s0 r s,
     __init__ operator ist evo_operator t n m k s0 = (r, s) →
     ∃ l, trace s = trace s0 ++ l ∧ count is_num_qubits l = 0%nat) ∧
  (∀ s r s',
     constructed operator ist evo_operator t n m k s →
     construct_circuit s = (r, s') →
     ∃ op evo l,
       _operator (self s) = Some op ∧ _evo_operator (self s) = Some evo ∧
       trace s' = trace s ++ returned (GetNumQubits op) :: l ∧
       count is_num_qubits l = 0%nat ∧
       Forall (λ y, ∀ size name,
                 entry_call y = CallQuantumRegister size name →
                 size = num_qubits op) l ∧
       propagated (raised_by r) (returned (GetNumQubits op) :: l) ∧
       (∀ reg e1 prefix e2 fragment e3 qc e4,
          new_QuantumRegister (num_qubits op) "q" (env s) = (inr reg, e1) →
          initial_state_construct_circuit ist "circuit" reg e1
            = (inr prefix, e2) →
          operator_evolve evo t n reg m k e2 = (inr fragment, e3) →
          circuit_iadd prefix fragment e3 = (inr qc, e4) →
          r = inr qc)).
Proof.
  split.
  - intros [e0 o h tr] r s H. unfold __init__ in H.
    destruct (_validate_eoh t n m k) as [x|[]] eqn:Ev.
    + norm_in H. finish H. exists []. cbn. rewrite app_nil_r. auto.
    + run_cases H; eexists;
        (split; [cbn; rewrite <- ?app_assoc; reflexivity |]); reflexivity.
  - intros s r s' Hc H.
    destruct (constructed_attributes _ _ _ _ _ _ _ _ Hc)
      as (_ & op & evo & d & q & prev & Hs & _).
    exists op, evo.
    pose proof (λ reg e1 prefix e2 fragment e3 qc e4,
                  build_returns s op ist evo t n m k d q r s'
                    reg e1 prefix e2 fragment e3 qc e4 Hs H) as Hret.
    destruct s as [e0 o h tr]. cbn in Hs. subst o.
    run_cases H; eexists;
      (split; [reflexivity |]); (split; [reflexivity |]);
      (split; [cbn; rewrite <- ?app_assoc; reflexivity |]);
      (split; [reflexivity |]);
      (split; [cbn; repeat constructor; cbn; intros; congruence |]);
      (split; [cbn; repeat constructor | exact Hret]).
Qed.

(** ** The initial state and the backend at construction *)

(** C10. Construction stores the initial state as it is given and calls
    nothing on it, and it calls nothing on a backend: the calls it makes
    are the two conversions.  With any other initial state it ends the same
    way, in a state that differs in the stored initial state only; so it
    returns whenever the checks pass and the conversions return.  An
    initial state whose [construct_circuit] raises makes the first
    [construct_circuit] or [_run] end with that exception. *)
Theorem preparer_not_inspected operator ist ist' evo_operator t n m k s0 r s :
  __init__ operator ist evo_operator t n m k s0 = (r, s) →
  (∃ s2,
     __init__ operator ist' evo_operator t n m k s0 = (r, s2) ∧
     env s2 = env s ∧ heap s2 = heap s ∧ trace s2 = trace s ∧
     (r = inr tt → self s2 = set_initial_state ist' (self s))) ∧
  (∃ l, trace s = trace s0 ++ l ∧ Forall (λ y, is_conversion y = true) l) ∧
  (¬ invalid_parameters t n m k →
   ∀ op e1 evo e2,
     convert operator (env s0) = (inr op, e1) →
     convert evo_operator e1 = (inr evo, e2) →
     r = inr tt) ∧
  (r = inr tt →
   _initial_state (self s) = Some ist ∧
   _quantum_instance (self s) = Some None ∧
   ∃ op,
     _operator (self s) = Some op ∧
     ∀ reg e1 x e2,
       new_QuantumRegister (num_qubits op) "q" (env s) = (inr reg, e1) →
       initial_state_construct_circuit ist "circuit" reg e1 = (inl x, e2) →
       (∃ s', construct_circuit s = (inl x, s')) ∧
       (∃ s', _run s = (inl x, s'))).
Proof.
  intros H. split; [| split; [| split]].
  - destruct s0 as [e0 o h tr]. unfold __init__ in *.
    destruct (_validate_eoh t n m k) as [x|[]] eqn:Ev.
    + norm_in H. finish H. eexists. split; [reflexivity |].
      repeat split. intros; discriminate.
    + run_cases H; eexists; (split; [replay; reflexivity |]);
        repeat split; intros; discriminate.
  - destruct s0 as [e0 o h tr]. unfold __init__ in H.
    destruct (_validate_eoh t n m k) as [x|[]] eqn:Ev.
    + norm_in H. finish H. exists []. cbn. rewrite app_nil_r. auto.
    + run_cases H; eexists;
        (split; [cbn; rewrite <- ?app_assoc; reflexivity |]);
        each_entry; reflexivity.
  - intros Hv op e1 evo e2 Hop Hevo. apply validate_passes_iff in Hv.
    destruct s0 as [e0 o h tr]. unfold __init__ in H. rewrite Hv in H.
    cbn in Hop. norm_in H. rewrite Hop in H. norm_in H. rewrite Hevo in H.
    norm_in H. finish H. reflexivity.
  - intros ->.
    apply init_returns in H as (_ & op & evo & e1 & _ & _ & Hs & _).
    rewrite Hs. split; [reflexivity |]. split; [reflexivity |].
    exists op. split; [reflexivity |].
    intros reg e1' x e2 H1 H2. destruct s as [e o h tr]. cbn in Hs, H1.
    subst o. split; eexists; replay; reflexivity.
Qed.

End Properties.

(** * The properties at work on the small set of collaborators *)

Section Examples.

Import Toy.

Lemma built_constructed :
  constructed (matrix 1) hadamard (paulis 1) 1 2 "trotter" 1 built.
Proof.
  apply (constructed_init _ _ _ _ _ _ _ start). vm_compute. reflexivity.
Qed.

Lemma ready_constructed :
  constructed (matrix 1) hadamard (paulis 1) 1 2 "trotter" 1 ready.
Proof.
  apply (constructed_bind _ _ _ _ _ _ _ statevector_backend built);
    [apply built_constructed | reflexivity].
Qed.

Lemma ran_once_constructed :
  constructed (matrix 1) hadamard (paulis 1) 1 2 "trotter" 1 ran_once.
Proof.
  apply (constructed_run _ _ _ _ _ _ _ (fst (_run ready)) ready);
    [apply ready_constructed | apply surjective_pairing].
Qed.

Lemma mismatched_constructed :
  constructed (paulis 1) hadamard (paulis 2) 1 1 "trotter" 1 mismatched.
Proof.
  apply (constructed_init _ _ _ _ _ _ _ start). vm_compute. reflexivity.
Qed.

Lemma unprepared_constructed :
  constructed (paulis 1) no_preparer (paulis 1) 1 1 "trotter" 1 unprepared.
Proof.
  apply (constructed_init _ _ _ _ _ _ _ start). vm_compute. reflexivity.
Qed.

(** The boundary values [evo_time = 0], [num_time_slices = 0] and
    [expansion_order = 1] are accepted, with mode 'suzuki'. *)
Lemma construction_validates_witness :
  ∃ s, __init__ (matrix 2) hadamard (paulis 2) 0 0 "suzuki" 1 start
       = (inr tt, s).
Proof.
  destruct (construction_validates (matrix 2) hadamard (paulis 2)
              0 0 "suzuki" 1 start) as [_ Hvalid].
  destruct Hvalid as (_ & Hret & _);
    [lia | lia | apply list_elem_of_In; cbn; tauto | lia |].
  eapply Hret; reflexivity.
Defined.

(** With every parameter wrong, the checks speak in their order. *)
Lemma validation_is_eager_and_ordered_witness :
  __init__ (paulis 1) hadamard (paulis 1) (-1) (-2) "euler" 0 start
    = (inl (AquaError "Evo time value -1. Minimum value allowed is 0"), start) ∧
  __init__ (paulis 1) hadamard (paulis 1) 0 (-2) "euler" 0 start
    = (inl (AquaError "Num time slices value -2. Minimum value allowed is 0"),
       start) ∧
  __init__ (paulis 1) hadamard (paulis 1) 0 0 "euler" 0 start
    = (inl (AquaError
              "Expansion Mode value 'euler'. Values allowed are 'trotter', 'suzuki'"),
       start) ∧
  __init__ (paulis 1) hadamard (paulis 1) 0 0 "trotter" 0 start
    = (inl (AquaError "Expansion order value 0. Minimum value allowed is 1"),
       start).
Proof.
  split; [| split; [| split]].
  - apply (validation_is_eager_and_ordered (paulis 1) hadamard (paulis 1)
             (-1) (-2) "euler" 0 start). lia.
  - apply (validation_is_eager_and_ordered (paulis 1) hadamard (paulis 1)
             0 (-2) "euler" 0 start); lia.
  - apply (validation_is_eager_and_ordered (paulis 1) hadamard (paulis 1)
             0 0 "euler" 0 start); [lia | lia |].
    intros Hin. apply list_elem_of_In in Hin. cbn in Hin.
    destruct Hin as [Hin | [Hin | []]]; discriminate Hin.
  - apply (validation_is_eager_and_ordered (paulis 1) hadamard (paulis 1)
             0 0 "trotter" 0 start);
      [lia | lia | apply list_elem_of_In; cbn; tauto | lia].
Defined.

(** The circuit of the example object: the Hadamard gate, then two
    Trotter slices. *)
Lemma construct_circuit_composes_witness :
  fst (construct_circuit built) = inr ["h"; "evolve_trotter"; "evolve_trotter"] ∧
  self (snd (construct_circuit built)) = self built ∧
  heap (snd (construct_circuit built)) = heap built.
Proof.
  destruct (construct_circuit_composes _ _ _ _ _ _ _ built
              (fst (construct_circuit built)) (snd (construct_circuit built))
              built_constructed (surjective_pairing _))
    as (op & evo & Hop & Hevo & _ & Hret & Hself & Hheap & _).
  injection Hop as <-. injection Hevo as <-.
  split; [| split; assumption].
  eapply Hret; reflexivity.
Defined.

(** The example object runs: the dict at address 0 is returned. *)
Lemma run_sequence_witness : fst (_run ready) = inr 0%nat.
Proof.
  destruct (run_sequence _ _ _ _ _ _ _ ready statevector_backend
              (fst (_run ready)) (snd (_run ready))
              ready_constructed eq_refl (surjective_pairing _))
    as (op & d & l & Hop & Hd & _ & _ & Hret).
  injection Hop as <-. injection Hd as <-.
  eapply Hret; vm_compute; reflexivity.
Defined.

(** On the statevector backend the run of the example object makes both
    evaluation steps, each with [true], and no flagged call with [false]. *)
Lemma run_mode_flags_witness :
  ∃ l, trace (snd (_run ready)) = trace ready ++ l ∧
       Forall (λ y, ∀ flag, mode_flag_of (entry_call y) = Some flag →
                            flag = true) l ∧
       (∃ raised,
          mkEntry (CallConstructEvaluationCircuit 1
                     ["h"; "evolve_trotter"; "evolve_trotter"] true) raised
          ∈ l) ∧
       (∃ raised, mkEntry (CallEvaluateWithResult 1 10 true) raised ∈ l) ∧
       ∃ d, fst (_run ready) = inr d.
Proof.
  destruct (run_mode_flags _ _ _ _ _ _ _ ready statevector_backend
              (fst (_run ready)) (snd (_run ready))
              ready_constructed eq_refl (surjective_pairing _))
    as (op & l & Hop & Hl & Hflags & _ & Hwrap & Heval & Hret).
  injection Hop as <-.
  exists l. split; [assumption |]. split; [assumption |].
  split; [| split].
  - eapply Hwrap. vm_compute. reflexivity.
  - eapply Heval; vm_compute; reflexivity.
  - eapply Hret; vm_compute; reflexivity.
Defined.

(** The second run of the example object: the dict held 10 from the first
    run and holds 20 afterwards. *)
Lemma run_overwrites_summary_witness :
  heap ran_once !! 0%nat = Some (summary 10 0) ∧
  heap (snd (_run ran_once)) !! 0%nat = Some (summary 20 0).
Proof.
  split; [vm_compute; reflexivity |].
  destruct (run_overwrites_summary _ _ _ _ _ _ _ ran_once statevector_backend
              0%nat (snd (_run ran_once))
              ran_once_constructed eq_refl (surjective_pairing (_run ran_once)))
    as (_ & _ & op & result & e3 & avg & std_dev & prev &
        Heval & Hlast & _ & _ & Hheap & _).
  vm_compute in Hlast. injection Hlast as <- <-.
  vm_compute in Heval. injection Heval as <- <- _.
  exact Hheap.
Defined.

(** With [None] as initial state, building the circuit ends with the
    exception of the failed call, which is the last call logged. *)
Lemma failures_propagate_witness :
  ∃ l, trace (snd (construct_circuit unprepared)) = trace unprepared ++ l ∧
       propagated
         (Some (AttributeError
                  "'NoneType' object has no attribute 'construct_circuit'")) l.
Proof.
  destruct (failures_propagate _ _ _ _ _ _ _ unprepared unprepared_constructed)
    as (Hbuild & _).
  apply (Hbuild (fst (construct_circuit unprepared))
           (snd (construct_circuit unprepared)) (surjective_pairing _)).
Defined.

(** The conversions of the example object, in the log of its construction. *)
Lemma operators_canonical_once_witness :
  trace built = [returned (CallToWeightedPauliOperator (matrix 1));
                 returned (CallToWeightedPauliOperator (paulis 1))] ∧
  convert (paulis 1) 0 = (inr 1, 0).
Proof.
  destruct (operators_canonical_once (matrix 1) hadamard (paulis 1)
              1 2 "trotter" 1) as (Hinit & _ & Hsame & _).
  split; [| apply Hsame].
  destruct (Hinit start built) as (op & evo & e1 & _ & _ & _ & _ & Htrace);
    [vm_compute; reflexivity | exact Htrace].
Defined.

(** One qubit against two: the object is constructed, the one count read
    is that of the observable, and the exception is the evolution's. *)
Lemma qubit_counts_never_compared_witness :
  ∃ l, trace (snd (construct_circuit mismatched))
       = trace mismatched ++ returned (GetNumQubits 1) :: l ∧
       count is_num_qubits l = 0%nat ∧
       propagated
         (Some (QiskitError "qubit count does not match the register"))
         (returned (GetNumQubits 1) :: l).
Proof.
  destruct (qubit_counts_never_compared (paulis 1) hadamard (paulis 2)
              1 1 "trotter" 1) as (_ & Hbuild).
  destruct (Hbuild mismatched (fst (construct_circuit mismatched))
              (snd (construct_circuit mismatched))
              mismatched_constructed (surjective_pairing _))
    as (op & evo & l & Hop & _ & Htrace & Hcount & _ & Hraised & _).
  injection Hop as <-. exists l. repeat split; assumption.
Defined.

(** [None] as initial state: construction returns, and the first
    [construct_circuit] raises. *)
Lemma preparer_not_inspected_witness :
  fst (__init__ (paulis 1) no_preparer (paulis 1) 1 1 "trotter" 1 start)
    = inr tt ∧
  ∃ s', construct_circuit unprepared
        = (inl (AttributeError
                  "'NoneType' object has no attribute 'construct_circuit'"), s').
Proof.
  destruct (preparer_not_inspected (paulis 1) no_preparer hadamard (paulis 1)
              1 1 "trotter" 1 start (inr tt) unprepared)
    as (_ & _ & _ & Hlater); [vm_compute; reflexivity |].
  split; [vm_compute; reflexivity |].
  destruct (Hlater eq_refl) as (_ & _ & op & Hop & Hraise).
  injection Hop as <-.
  eapply Hraise; reflexivity.
Defined.

End Examples.

(** * Further properties of the methods *)

Lemma string_length_app (a b : string) :
  String.length (a +:+ b) = (String.length a + String.length b)%nat.
Proof.
  induction a as [|c a IH]; [reflexivity |].
  change (S (String.length (a +:+ b))
          = S (String.length a + String.length b)).
  congruence.
Qed.

Lemma string_app_inv_tail (a b c : string) : a +:+ c = b +:+ c → a = b.
Proof.
  revert b. induction a as [|x a IH]; intros [|y b] H.
  - reflexivity.
  - apply (f_equal String.length) in H.
    rewrite !string_length_app in H. cbn in H. lia.
  - apply (f_equal String.length) in H.
    rewrite !string_length_app in H. cbn in H. lia.
  - injection H as -> H. f_equal. apply IH, H.
Qed.

Section FurtherProperties.

Context `{C : Collaborators}.

Implicit Types (s : State) (op evo : WeightedPauliOperator)
  (operator evo_operator : BaseOperator) (ist : InitialState)
  (t n k : Z) (m : string) (qi : QuantumInstance) (d : nat)
  (l : list Entry) (x : Exception) (e : Env).

(** ** The exception of a failed check *)

Lemma validate_raises_cases t n m k x :
  _validate_eoh t n m k = inl x →
  (t < 0 ∧
   x = AquaError ("Evo time value " +:+ pretty t +:+
                  ". Minimum value allowed is 0")) ∨
  (0 ≤ t ∧ n < 0 ∧
   x = AquaError ("Num time slices value " +:+ pretty n +:+
                  ". Minimum value allowed is 0")) ∨
  (0 ≤ t ∧ 0 ≤ n ∧ (m ∉ ["trotter"; "suzuki"]) ∧
   x = AquaError ("Expansion Mode value '" +:+ m +:+
                  "'. Values allowed are 'trotter', 'suzuki'")) ∨
  (0 ≤ t ∧ 0 ≤ n ∧ (m ∈ ["trotter"; "suzuki"]) ∧ k < 1 ∧
   x = AquaError ("Expansion order value " +:+ pretty k +:+
                  ". Minimum value allowed is 1")).
Proof.
  unfold _validate_eoh. intros H.
  destruct (Z.ltb_spec t 0); [left; split; congruence |].
  destruct (Z.ltb_spec n 0); [right; left; repeat split; congruence |].
  case_bool_decide; cbn in H;
    [| right; right; left; repeat split; congruence].
  destruct (Z.ltb_spec k 1); [| discriminate].
  right; right; right. repeat split; congruence.
Qed.

(** X1. The exception of [_validate_eoh] tells which check failed and on
    which value: when two sets of arguments are rejected with the same
    exception, the same check rejected them and the rejected values are
    equal. *)
Theorem validation_error_identifies_check t n m k t' n' m' k' x :
  _validate_eoh t n m k = inl x →
  _validate_eoh t' n' m' k' = inl x →
  (t < 0 ∧ t' = t) ∨
  (0 ≤ t ∧ n < 0 ∧ 0 ≤ t' ∧ n' = n) ∨
  (0 ≤ t ∧ 0 ≤ n ∧ (m ∉ ["trotter"; "suzuki"]) ∧
   0 ≤ t' ∧ 0 ≤ n' ∧ m' = m) ∨
  (0 ≤ t ∧ 0 ≤ n ∧ (m ∈ ["trotter"; "suzuki"]) ∧ k < 1 ∧
   0 ≤ t' ∧ 0 ≤ n' ∧ (m' ∈ ["trotter"; "suzuki"]) ∧ k' = k).
Proof.
  intros H H'.
  apply validate_raises_cases in H as
    [(? & ->) | [(? & ? & ->) | [(? & ? & ? & ->) | (? & ? & ? & ? & ->)]]];
  apply validate_raises_cases in H' as
    [(? & H') | [(? & ? & H') | [(? & ? & ? & H') | (? & ? & ? & ? & H')]]];
  injection H' as H'; try discriminate H'.
  all: apply (inj (String.app _)), string_app_inv_tail in H'.
  all: try apply (inj pretty) in H'.
  all: subst; tauto.
Qed.

(** ** A conversion that raises *)

(** X2. When the checks pass and a conversion raises, [__init__] stops at
    that call: no dict is allocated and [_evo_operator], the four scalar
    attributes and [_ret] are not assigned.  If the conversion of the
    observable raises, the evolution operator is not converted and
    [_operator] and [_initial_state] are not assigned either; if the
    conversion of the evolution operator raises, [_operator] and
    [_initial_state] have been assigned already. *)
Theorem failed_conversion_stops_construction
    operator ist evo_operator t n m k s0 x s :
  _validate_eoh t n m k = inr tt →
  __init__ operator ist evo_operator t n m k s0 = (inl x, s) →
  heap s = heap s0 ∧
  _evo_operator (self s) = _evo_operator (self s0) ∧
  _evo_time (self s) = _evo_time (self s0) ∧
  _num_time_slices (self s) = _num_time_slices (self s0) ∧
  _expansion_mode (self s) = _expansion_mode (self s0) ∧
  _expansion_order (self s) = _expansion_order (self s0) ∧
  _ret (self s) = _ret (self s0) ∧
  ((convert operator (env s0) = (inl x, env s) ∧
    trace s = trace s0 ++
              [mkEntry (CallToWeightedPauliOperator operator) (Some x)] ∧
    _operator (self s) = _operator (self s0) ∧
    _initial_state (self s) = _initial_state (self s0))
   ∨
   (∃ op e1,
      convert operator (env s0) = (inr op, e1) ∧
      convert evo_operator e1 = (inl x, env s) ∧
      trace s = trace s0 ++
                [returned (CallToWeightedPauliOperator operator);
                 mkEntry (CallToWeightedPauliOperator evo_operator) (Some x)] ∧
      _operator (self s) = Some op ∧
      _initial_state (self s) = Some ist)).
Proof.
  intros Hv H. destruct s0 as [e0 [o1 o2 o3 o4 o5 o6 o7 o8 o9] h tr].
  unfold __init__ in H. rewrite Hv in H.
  run_cases H; cbn; do 7 (split; [reflexivity |]).
  - left. auto.
  - right. do 2 eexists. rewrite <- app_assoc. cbn. eauto.
Qed.

(** ** The attributes over the life of an object *)

(** X3. On every state of a constructed object the attributes hold what
    the constructor was given (the operators in converted form), the
    scalars satisfy the four checks, and the dict of [_ret] is either empty
    or holds exactly 'avg' and 'std_dev'.  Neither [construct_circuit] nor
    [_run] assigns an attribute, so [_ret] is the same dict throughout. *)
Theorem attributes_are_kept operator ist evo_operator t n m k s :
  constructed operator ist evo_operator t n m k s →
  (∃ op evo,
     _operator (self s) = Some op ∧ _evo_operator (self s) = Some evo ∧
     (∃ e e', convert operator e = (inr op, e')) ∧
     (∃ e e', convert evo_operator e = (inr evo, e'))) ∧
  _initial_state (self s) = Some ist ∧
  _evo_time (self s) = Some t ∧
  _num_time_slices (self s) = Some n ∧
  _expansion_mode (self s) = Some m ∧
  _expansion_order (self s) = Some k ∧
  0 ≤ t ∧ 0 ≤ n ∧ (m ∈ ["trotter"; "suzuki"]) ∧ 1 ≤ k ∧
  (∃ d prev,
     _ret (self s) = Some d ∧ heap s !! d = Some prev ∧
     (dom prev = ∅ ∨ dom prev = {["avg"; "std_dev"]})) ∧
  (∀ r s', construct_circuit s = (r, s') → self s' = self s) ∧
  (∀ r s', _run s = (r, s') → self s' = self s).
Proof.
  intros Hc.
  destruct (constructed_attributes _ _ _ _ _ _ _ _ Hc)
    as (Hv & op & evo & d & q & prev & Hs & Hh & Hp & Hop & Hevo).
  rewrite Hs. cbn.
  split; [exists op, evo; auto |]. do 5 (split; [reflexivity |]).
  unfold invalid_parameters in Hv.
  split; [lia |]. split; [lia |].
  split; [destruct (decide (m ∈ ["trotter"; "suzuki"])); tauto |].
  split; [lia |]. split; [| split].
  - exists d, prev. split; [reflexivity |]. split; [assumption |].
    destruct Hp as [-> | (avg & std_dev & ->)].
    + left. apply dom_empty_L.
    + right. unfold summary. rewrite !dom_insert_L. set_solver.
  - intros r s' H. rewrite <- Hs.
    apply (build_frame _ _ _ _ _ _ _ _ _ _ _ _ Hs H).
  - intros r s' H. rewrite <- Hs.
    apply (run_frame _ _ _ _ _ _ _ _ _ _ _ _ Hs H).
Qed.

(** ** A run without a backend *)

(** X4. While [_quantum_instance] is [None], [_run] still builds the
    circuit first, with every call that takes; it then ends where
    [construct_circuit] ended: with the exception of the build, or, when
    the build returned, with the [AttributeError] of reading
    [is_statevector] on [None].  Nothing else is called and no dict
    changes. *)
Theorem run_without_backend operator ist evo_operator t n m k s r s' :
  constructed operator ist evo_operator t n m k s →
  _quantum_instance (self s) = Some None →
  _run s = (r, s') →
  ∃ rb,
    construct_circuit s = (rb, s') ∧
    heap s' = heap s ∧
    r = match rb with
        | inl x => inl x
        | inr _ =>
            inl (AttributeError
                   "'NoneType' object has no attribute 'is_statevector'")
        end.
Proof.
  intros Hc Hq H.
  destruct (constructed_attributes _ _ _ _ _ _ _ _ Hc)
    as (_ & op & evo & d & q & prev & Hs & _).
  destruct s as [e0 o h tr]. cbn in Hs, Hq. subst o.
  norm_in Hq. injection Hq as ->.
  run_cases H; eexists; (split; [replay; reflexivity |]);
    split; reflexivity.
Qed.

(** ** How many calls a method makes *)

(** X5. [construct_circuit] makes at most five logged calls and [_run] at
    most ten; in one call of either, no constructor or method of a
    collaborator is called twice and no operator is converted.  The one
    attribute read twice in a run is [is_statevector]. *)
Theorem calls_are_not_repeated operator ist evo_operator t n m k s :
  constructed operator ist evo_operator t n m k s →
  (∀ r s', construct_circuit s = (r, s') →
     ∃ l, trace s' = trace s ++ l ∧ (length l ≤ 5)%nat ∧
          ∀ meth, (calls_of meth l ≤ 1)%nat) ∧
  (∀ r s', _run s = (r, s') →
     ∃ l, trace s' = trace s ++ l ∧ (length l ≤ 10)%nat ∧
          calls_of Method_to_weighted_pauli_operator l = 0%nat ∧
          ∀ meth, (calls_of meth l
                   ≤ match meth with Method_is_statevector => 2 | _ => 1 end)%nat).
Proof.
  intros Hc.
  destruct (constructed_attributes _ _ _ _ _ _ _ _ Hc)
    as (_ & op & evo & d & q & prev & Hs & _).
  destruct s as [e0 o h tr]. cbn in Hs. subst o.
  split; intros r s' H; [| destruct q as [qi|]].
  - run_cases H; eexists;
      (split; [cbn; rewrite <- ?app_assoc; reflexivity |]);
      (split; [cbn; lia |]); intros []; vm_compute; lia.
  - run_cases H; eexists;
      (split; [cbn; rewrite <- ?app_assoc; reflexivity |]);
      (split; [cbn; lia |]); (split; [reflexivity |]); intros []; vm_compute; lia.
  - run_cases H; eexists;
      (split; [cbn; rewrite <- ?app_assoc; reflexivity |]);
      (split; [cbn; lia |]); (split; [reflexivity |]); intros []; vm_compute; lia.
Qed.

(** ** What a run does not read *)

(** X6. [_run] reads neither the dicts nor the log: on two states with the
    same attributes and the same state of the collaborators it ends the
    same way, makes the same calls and leaves the collaborators in the same
    state, whatever the dicts hold. *)
Theorem run_ignores_stored_summary operator ist evo_operator t n m k s s2 :
  constructed operator ist evo_operator t n m k s →
  self s2 = self s →
  env s2 = env s →
  fst (_run s2) = fst (_run s) ∧
  env (snd (_run s2)) = env (snd (_run s)) ∧
  ∃ l, trace (snd (_run s)) = trace s ++ l ∧
       trace (snd (_run s2)) = trace s2 ++ l.
Proof.
  intros Hc Hs2 He2.
  destruct (constructed_attributes _ _ _ _ _ _ _ _ Hc)
    as (_ & op & evo & d & q & prev & Hs & _).
  destruct s as [e0 o h tr], s2 as [e2 o2 h2 tr2]. cbn in Hs, Hs2, He2.
  subst o o2 e2.
  destruct (_run (mkState e0 _ h tr)) as [r s'] eqn:H.
  destruct q as [qi|]; run_cases H; replay; cbn;
    (split; [reflexivity |]); (split; [reflexivity |]);
    eexists; split; rewrite <- ?app_assoc; reflexivity.
Qed.

End FurtherProperties.

(** * The further properties at work on the small set of collaborators *)

Section FurtherExamples.

Import Toy.

(** Two rejections with the message of [evo_time = -3]. *)
Lemma validation_error_identifies_check_witness :
  (-3 < 0 ∧ -3 = -3) ∨
  (0 ≤ -3 ∧ 5 < 0 ∧ 0 ≤ -3 ∧ -9 = 5) ∨
  (0 ≤ -3 ∧ 0 ≤ 5 ∧ ("euler" ∉ ["trotter"; "suzuki"]) ∧
   0 ≤ -3 ∧ 0 ≤ -9 ∧ "trotter" = "euler") ∨
  (0 ≤ -3 ∧ 0 ≤ 5 ∧ ("euler" ∈ ["trotter"; "suzuki"]) ∧ 0 < 1 ∧
   0 ≤ -3 ∧ 0 ≤ -9 ∧ ("trotter" ∈ ["trotter"; "suzuki"]) ∧ 7 = 0).
Proof.
  apply (validation_error_identifies_check (-3) 5 "euler" 0 (-3) (-9)
           "trotter" 7
           (AquaError "Evo time value -3. Minimum value allowed is 0"));
    reflexivity.
Defined.

(** The conversion of the evolution operator raises: the observable and
    the initial state are stored, the rest is not. *)
Lemma failed_conversion_stops_construction_witness :
  _operator (self half_built) = Some 1 ∧
  _initial_state (self half_built) = Some hadamard ∧
  _evo_operator (self half_built) = None ∧
  _ret (self half_built) = None ∧
  heap half_built = [].
Proof.
  destruct (failed_conversion_stops_construction
              (paulis 1) hadamard (matrix (-1)) 1 1 "trotter" 1 start
              (AquaError "Unsupported type to convert to WeightedPauliOperator")
              half_built)
    as (Hheap & Hevo & _ & _ & _ & _ & Hret &
        [(Hconv & _) | (op & e1 & Hconv & _ & _ & Hop & Hist)]);
    [reflexivity | vm_compute; reflexivity | discriminate Hconv |].
  vm_compute in Hconv. injection Hconv as <- _.
  repeat split; assumption.
Defined.

(** After a run the example object still holds its two slices and its
    mode. *)
Lemma attributes_are_kept_witness :
  _num_time_slices (self ran_once) = Some 2 ∧
  _expansion_mode (self ran_once) = Some "trotter".
Proof.
  destruct (attributes_are_kept _ _ _ _ _ _ _ ran_once ran_once_constructed)
    as (_ & _ & _ & Hn & Hm & _).
  split; assumption.
Defined.

(** The example object before a backend is bound. *)
Lemma run_without_backend_witness :
  fst (_run built)
  = inl (AttributeError "'NoneType' object has no attribute 'is_statevector'").
Proof.
  destruct (run_without_backend _ _ _ _ _ _ _ built
              (fst (_run built)) (snd (_run built))
              built_constructed eq_refl (surjective_pairing _))
    as (rb & Hb & _ & ->).
  apply (f_equal fst) in Hb. vm_compute in Hb. subst rb. reflexivity.
Defined.

(** One run of the example object: ten calls, one of them [execute]. *)
Lemma calls_are_not_repeated_witness :
  ∃ l, trace (snd (_run ready)) = trace ready ++ l ∧
       (length l ≤ 10)%nat ∧ (calls_of Method_execute l ≤ 1)%nat.
Proof.
  destruct (calls_are_not_repeated _ _ _ _ _ _ _ ready ready_constructed)
    as (_ & Hrun).
  destruct (Hrun (fst (_run ready)) (snd (_run ready)) (surjective_pairing _))
    as (l & Hl & Hlen & _ & Hcalls).
  exists l. split; [assumption |]. split; [assumption |].
  apply (Hcalls Method_execute).
Defined.

(** The second run of the example object ends the same way when the store
    holds other dicts. *)
Lemma run_ignores_stored_summary_witness :
  fst (_run elsewhere) = fst (_run ran_once) ∧
  env (snd (_run elsewhere)) = env (snd (_run ran_once)).
Proof.
  destruct (run_ignores_stored_summary _ _ _ _ _ _ _ ran_once elsewhere
              ran_once_constructed eq_refl eq_refl)
    as (Hr & He & _).
  split; assumption.
Defined.

End FurtherExamples.
